(** * Shallow embedding of src/backend/main.py (MACE EU content manager API)

    The two mutating Flask handlers, [add_post] and [delete_post], are
    modelled as functions in a small state-and-error monad over the remote
    GitHub repository.  The repository is a finite map from paths to files
    (decoded content and a revision marker), plus a log of every
    create_file / update_file call the handler issued (successful or not).
    Python exceptions are the [Err] branch of the monad; [try ... except]
    blocks are [catch]. *)

From Stdlib Require Import Ascii.
From stdpp Require Import base gmap strings list.

Open Scope string_scope.

(** ** JSON data *)

(** A post record as it sits in the JSON array.  Each field is the value
    of [post.get(field)]: [None] for a missing key or a JSON null.  The
    elements of the stored array are JSON objects. *)
Record post := mkPost {
  p_id : option string;
  p_title : option string;
  p_author : option string;
  p_date : option string;
  p_type : option string;
  p_banner : option string;
  p_content : option string;
  p_mediaType : option string;
  p_mediaUrl : option string
}.

(** What [json.loads(base64.b64decode(c).decode('utf-8'))] makes of a file
    of the repository. *)
Inductive content :=
  | CArray (l : list post)          (* a JSON array of objects *)
  | CObject (nkeys : nat)           (* a JSON object with that many keys *)
  | CString (s : string)            (* a JSON string *)
  | CScalar                         (* a JSON number, boolean or null *)
  | CUndecodable.                   (* not base64 / utf-8 / JSON *)

(** ** The remote repository (PyGithub [Repository]) *)

Record file := mkFile { fc_content : content; fc_sha : nat }.

Inductive write_call :=
  | WCreate (path : string) (c : content)
  | WUpdate (path : string) (c : content) (sha : nat).

(** [r_reachable] says whether [g.get_repo(REPO_NAME)] succeeds (network
    up, token valid, repository exists).  [r_writes] logs the write calls,
    the newest first. *)
Record repo := mkRepo {
  r_reachable : bool;
  r_files : gmap string file;
  r_next_sha : nat;
  r_writes : list write_call
}.

Inductive res (A : Type) := Ok (a : A) | Err (e : string).
Arguments Ok {A} _.
Arguments Err {A} _.

(** The state-and-error monad: effects done before an exception persist. *)
Definition M (A : Type) : Type := repo -> res A * repo.

Definition ret {A} (a : A) : M A := fun r => (Ok a, r).
Definition throw {A} (e : string) : M A := fun r => (Err e, r).
Definition bind {A B} (m : M A) (k : A -> M B) : M B :=
  fun r => match m r with
           | (Ok a, r') => k a r'
           | (Err e, r') => (Err e, r')
           end.
Definition catch {A} (m : M A) (h : string -> M A) : M A :=
  fun r => match m r with
           | (Err e, r') => h e r'
           | ok => ok
           end.

Notation "'let*' x ':=' c1 'in' c2" := (bind c1 (fun x => c2))
  (at level 64, x name, c1 at next level, right associativity).

Definition log_write (w : write_call) (r : repo) : repo :=
  mkRepo (r_reachable r) (r_files r) (r_next_sha r) (w :: r_writes r).

Definition put_file (path : string) (c : content) (r : repo) : repo :=
  mkRepo (r_reachable r) (<[path := mkFile c (r_next_sha r)]> (r_files r))
         (S (r_next_sha r)) (r_writes r).

(** [g.get_repo(REPO_NAME)] *)
Definition get_repo : M unit :=
  fun r => if r_reachable r then (Ok tt, r)
           else (Err "401 Bad credentials", r).

(** [repo.get_contents(path)]: raises when the path does not exist. *)
Definition get_contents (path : string) : M file :=
  fun r => match r_files r !! path with
           | Some f => (Ok f, r)
           | None => (Err "404 Not Found", r)
           end.

(** [repo.create_file(path, message, content)]: GitHub refuses to create a
    file that already exists. *)
Definition create_file (path : string) (c : content) : M unit :=
  fun r0 => let r := log_write (WCreate path c) r0 in
            match r_files r !! path with
            | Some _ => (Err "422 sha wasn't supplied", r)
            | None => (Ok tt, put_file path c r)
            end.

(** [repo.update_file(path, message, content, sha)]: the revision marker
    must be the current one. *)
Definition update_file (path : string) (c : content) (sha : nat) : M unit :=
  fun r0 => let r := log_write (WUpdate path c sha) r0 in
            match r_files r !! path with
            | None => (Err "404 Not Found", r)
            | Some f => if Nat.eqb (fc_sha f) sha then (Ok tt, put_file path c r)
                        else (Err "409 conflict", r)
            end.

(** [base64.b64decode(...).decode('utf-8')] followed by [json.loads]. *)
Definition json_loads (c : content) : M content :=
  match c with
  | CUndecodable => throw "JSONDecodeError"
  | _ => ret c
  end.

(** ** Python helpers *)

(** Truthiness of a form value ([None] or [""] is falsy). *)
Definition truthy (o : option string) : bool :=
  match o with Some s => negb (String.eqb s "") | None => false end.

(** [o == s] for a form value that may be [None]. *)
Definition opt_is (o : option string) (s : string) : bool :=
  match o with Some x => String.eqb x s | None => false end.

Fixpoint contains_dot (s : string) : bool :=
  match s with
  | EmptyString => false
  | String c rest => Ascii.eqb c "."%char || contains_dot rest
  end.

(** Split at the last dot: [(before, after)]. *)
Fixpoint split_last_dot (s : string) : option (string * string) :=
  match s with
  | EmptyString => None
  | String c rest =>
      match split_last_dot rest with
      | Some (a, b) => Some (String c a, b)
      | None => if Ascii.eqb c "."%char then Some ("", rest) else None
      end
  end.

(** [s.rsplit('.', 1)] *)
Definition rsplit_dot_1 (s : string) : list string :=
  match split_last_dot s with
  | Some (a, b) => [a; b]
  | None => [s]
  end.

(** [str.lower()] on ASCII text. *)
Definition lower_char (c : ascii) : ascii :=
  let n := nat_of_ascii c in
  if (65 <=? n)%nat && (n <=? 90)%nat then ascii_of_nat (n + 32)%nat else c.

Fixpoint lower (s : string) : string :=
  match s with
  | EmptyString => EmptyString
  | String c rest => String (lower_char c) (lower rest)
  end.

Definition ALLOWED_EXTENSIONS : list string := ["png"; "jpg"; "jpeg"; "gif"; "pdf"].

(** [allowed_file] *)
Definition allowed_file (filename : string) : bool :=
  contains_dot filename &&
  existsb (String.eqb (lower (nth 1 (rsplit_dot_1 filename) ""))) ALLOWED_EXTENSIONS.

(** ** Requests and responses *)

(** An entry of [request.files]: [FileStorage] is truthy iff its file name
    is non-empty; [u_data] is what its bytes would decode to. *)
Record upload := mkUpload { u_filename : string; u_data : content }.

Definition file_truthy (u : upload) : bool := negb (String.eqb (u_filename u) "").

(** The multipart form of [POST /add-post]; [f_mediaUrl] is
    [request.form.get('mediaUrl', '')] and [f_file] is [request.files['file']]
    when present. *)
Record form := mkForm {
  f_title : option string;
  f_author : option string;
  f_content : option string;
  f_type : option string;
  f_mediaUrl : string;
  f_file : option upload
}.

(** The values drawn by [uuid.uuid4().hex] (banner name), [str(uuid.uuid4())]
    (post id) and [datetime.now().strftime("%b %d, %Y")]. *)
Record fresh := mkFresh { banner_hex : string; post_uuid : string; now_date : string }.

Record response := mkResponse { status : nat; body : list (string * string) }.

Definition FALLBACK_BANNER : string :=
  "https://images.unsplash.com/photo-1504052434569-70ad5836ab65".

(** ** The handlers *)

Section Handlers.

(** The configuration read at start-up. *)
Variables WEBSITE_URL UPLOAD_FOLDER JSON_PATH : string.

(** Step 3 of [add_post]: upload the banner when a permitted file is sent;
    [""] otherwise. *)
Definition upload_banner (fr : fresh) (file : option upload) : M string :=
  match file with
  | Some f =>
      if file_truthy f && allowed_file (u_filename f) then
        let ext := lower (nth 1 (rsplit_dot_1 (u_filename f)) "") in
        let unique_filename := banner_hex fr ++ "." ++ ext in
        let repo_path := UPLOAD_FOLDER ++ unique_filename in
        let* _ := create_file repo_path (u_data f) in
        ret (WEBSITE_URL ++ repo_path)
      else ret ""
  | None => ret ""
  end.

(** Step 4 of [add_post]: [(final_media_url, final_media_type)]. *)
Definition media_config (post_type : option string) (media_url_input banner : string)
    : string * string :=
  if opt_is post_type "image" then (banner, "image")
  else if opt_is post_type "video" || opt_is post_type "youtube"
  then (media_url_input, "youtube")
  else if opt_is post_type "pdf" then (media_url_input, "pdf")
  else if opt_is post_type "article" then ("", "none")
  else ("", "none").

(** Step 5 of [add_post]: [new_post]. *)
Definition build_post (fr : fresh) (req : form) (banner : string) : post :=
  let '(mu, mt) := media_config (f_type req) (f_mediaUrl req) banner in
  mkPost (Some (post_uuid fr)) (f_title req) (f_author req) (Some (now_date fr))
         (f_type req) (Some banner) (f_content req) (Some mt) (Some mu).

(** The [try: ... except: existing_data = []; file_content = None] block. *)
Definition fetch_store : M (content * option file) :=
  catch (let* fc := get_contents JSON_PATH in
         let* existing := json_loads (fc_content fc) in
         ret (existing, Some fc))
        (fun _ => ret (CArray [], None)).

(** [existing_data.insert(0, new_post)]: only a list has [insert]. *)
Definition insert_front (p : post) (existing : content) : M content :=
  match existing with
  | CArray l => ret (CArray (p :: l))
  | _ => throw "AttributeError: object has no attribute 'insert'"
  end.

Definition add_post_body (fr : fresh) (req : form) : M response :=
  let* _ := get_repo in
  if negb (truthy (f_title req)) || negb (truthy (f_author req)) then
    ret (mkResponse 400 [("error", "Title and Author are required")])
  else
    let* uploaded := upload_banner fr (f_file req) in
    let banner := if String.eqb uploaded "" then FALLBACK_BANNER else uploaded in
    let new_post := build_post fr req banner in
    let* fetched := fetch_store in
    let* updated := insert_front new_post (fst fetched) in
    let* _ := match snd fetched with
              | Some fc => update_file JSON_PATH updated (fc_sha fc)
              | None => create_file JSON_PATH updated
              end in
    ret (mkResponse 200 [("message", "Success");
                         ("id", post_uuid fr);
                         ("url", fst (media_config (f_type req) (f_mediaUrl req) banner));
                         ("banner_url", banner)]).

(** [POST /add-post] *)
Definition add_post (fr : fresh) (req : form) : M response :=
  catch (add_post_body fr req) (fun e => ret (mkResponse 500 [("error", e)])).

(** The list comprehension of step 4 of [delete_post], iterating the loaded
    JSON value; returns [new_data] and [len(existing_data)]. *)
Definition filter_out (post_id : option string) (existing : content)
    : M (list post * nat) :=
  match existing with
  | CArray l =>
      ret (List.filter (fun p => negb (bool_decide (p_id p = post_id))) l, length l)
  | CObject 0 => ret ([], 0%nat)
  | CObject _ => throw "AttributeError: 'str' object has no attribute 'get'"
  | CString s =>
      if String.eqb s "" then ret ([], 0%nat)
      else throw "AttributeError: 'str' object has no attribute 'get'"
  | CScalar => throw "TypeError: object is not iterable"
  | CUndecodable => throw "JSONDecodeError"
  end.

Definition delete_post_body (post_id : option string) : M response :=
  if negb (truthy post_id) then
    ret (mkResponse 400 [("error", "Post ID is required")])
  else
    let* _ := get_repo in
    let* fc := get_contents JSON_PATH in
    let* existing := json_loads (fc_content fc) in
    let* filtered := filter_out post_id existing in
    if Nat.eqb (length (fst filtered)) (snd filtered) then
      ret (mkResponse 404 [("error", "Post not found")])
    else
      let* _ := update_file JSON_PATH (CArray (fst filtered)) (fc_sha fc) in
      ret (mkResponse 200 [("message", "Post deleted successfully")]).

(** [POST /delete-post] with JSON body [{"id": post_id}]. *)
Definition delete_post (post_id : option string) : M response :=
  catch (delete_post_body post_id) (fun e => ret (mkResponse 500 [("error", e)])).

(** The post store as a client reads it back: the array at [JSON_PATH]. *)
Definition stored_posts (r : repo) : option (list post) :=
  match r_files r !! JSON_PATH with
  | Some (mkFile (CArray l) _) => Some l
  | _ => None
  end.

(** Whether [add_post] uploads the submitted file (step 3's condition). *)
Definition uploads_file (file : option upload) : bool :=
  match file with
  | Some f => file_truthy f && allowed_file (u_filename f)
  | None => false
  end.

(** [repo_path] of step 3. *)
Definition upload_path (fr : fresh) (f : upload) : string :=
  UPLOAD_FOLDER ++ (banner_hex fr ++ "." ++ lower (nth 1 (rsplit_dot_1 (u_filename f)) "")).

(** [banner_full_url] after the fallback of step 3. *)
Definition derived_banner (fr : fresh) (file : option upload) : string :=
  match file with
  | Some f => if uploads_file (Some f) then WEBSITE_URL ++ upload_path fr f
              else FALLBACK_BANNER
  | None => FALLBACK_BANNER
  end.

(** The repository as step 6 of [add_post] finds it, after the upload. *)
Definition state_before_store (fr : fresh) (req : form) (r : repo) : repo :=
  snd (upload_banner fr (f_file req) r).

End Handlers.

(** ** Start-up configuration (module level of main.py) *)

(** [s.endswith('/')] *)
Fixpoint ends_with_slash (s : string) : bool :=
  match s with
  | EmptyString => false
  | String c EmptyString => Ascii.eqb c "/"%char
  | String _ rest => ends_with_slash rest
  end.

Record config := mkConfig {
  cfg_GITHUB_TOKEN : string;
  cfg_REPO_NAME : string;
  cfg_WEBSITE_URL : string;
  cfg_JSON_PATH : string;
  cfg_UPLOAD_FOLDER : string
}.

(** Lines 18-37: read the environment ([os.environ.get]), apply the
    defaults, add the trailing slashes, and raise [ValueError] when a
    critical variable is missing or empty. *)
Definition load_config (env : string -> option string) : res config :=
  let GITHUB_TOKEN := env "GITHUB_TOKEN" in
  let REPO_NAME := env "GITHUB_REPO_NAME" in
  let WEBSITE_URL := env "WEBSITE_URL" in
  let JSON_PATH := default "gospel.json" (env "JSON_PATH") in
  let UPLOAD_FOLDER := default "gospel-uploads/" (env "UPLOAD_FOLDER") in
  let UPLOAD_FOLDER :=
    if negb (ends_with_slash UPLOAD_FOLDER) then UPLOAD_FOLDER ++ "/" else UPLOAD_FOLDER in
  let WEBSITE_URL :=
    match WEBSITE_URL with
    | Some w => if truthy (Some w) && negb (ends_with_slash w) then Some (w ++ "/") else Some w
    | None => None
    end in
  if negb (truthy GITHUB_TOKEN) || negb (truthy REPO_NAME) || negb (truthy WEBSITE_URL) then
    Err "Missing critical environment variables! Check your .env file."
  else
    match GITHUB_TOKEN, REPO_NAME, WEBSITE_URL with
    | Some t, Some n, Some w => Ok (mkConfig t n w JSON_PATH UPLOAD_FOLDER)
    | _, _, _ => Err "Missing critical environment variables! Check your .env file."
    end.

(** ** Sample data *)

Definition web : string := "https://site.example/".
Definition uploads : string := "gospel-uploads/".
Definition store_path : string := "gospel.json".
Definition fr0 : fresh := mkFresh "abc123" "uuid-1" "Oct 15, 2026".

Definition mk_post (id : string) : post :=
  mkPost (Some id) (Some "t") (Some "a") (Some "d") (Some "article")
         (Some FALLBACK_BANNER) (Some "c") (Some "none") (Some "").

Definition repo_with (reachable : bool) (c : option content) : repo :=
  mkRepo reachable
         (match c with Some c => {[ store_path := mkFile c 7 ]} | None => ∅ end)
         8 [].

Definition form0 (ty : option string) (file : option upload) : form :=
  mkForm (Some "Hello") (Some "Ann") (Some "body") ty "https://youtu.be/x" file.



(** ** Lemmas on the building blocks *)

Section Monad_facts.

Lemma bind_Ok {A B} (m : M A) (k : A -> M B) r b r'' :
  bind m k r = (Ok b, r'') -> exists a r', m r = (Ok a, r') /\ k a r' = (Ok b, r'').
Proof. unfold bind. destruct (m r) as [[a|e] r'] eqn:E; [eauto | discriminate]. Qed.

Lemma bind_Err {A B} (m : M A) (k : A -> M B) r e r' :
  m r = (Err e, r') -> bind m k r = (Err e, r').
Proof. unfold bind. by intros ->. Qed.

Lemma bind_step {A B} (m : M A) (k : A -> M B) r a r' :
  m r = (Ok a, r') -> bind m k r = k a r'.
Proof. unfold bind. by intros ->. Qed.

Lemma ret_Ok {A} (a b : A) r r' : ret a r = (Ok b, r') -> a = b /\ r = r'.
Proof. by intros [= -> ->]. Qed.

Lemma throw_Ok {A} e (b : A) r r' : throw e r = (Ok b, r') -> False.
Proof. discriminate. Qed.

Lemma get_repo_Ok r u r' :
  get_repo r = (Ok u, r') -> r_reachable r = true /\ r' = r.
Proof. unfold get_repo. destruct (r_reachable r); by intros [= <-]. Qed.

Lemma get_contents_Ok p r f r' :
  get_contents p r = (Ok f, r') -> r_files r !! p = Some f /\ r' = r.
Proof. unfold get_contents. destruct (r_files r !! p); by intros [= -> <-]. Qed.

Lemma create_file_Ok p c r u r' :
  create_file p c r = (Ok u, r') ->
  r_files r !! p = None /\ r' = put_file p c (log_write (WCreate p c) r).
Proof. unfold create_file. simpl. destruct (r_files r !! p); by intros [= <-]. Qed.

Lemma update_file_Ok p c sha r u r' :
  update_file p c sha r = (Ok u, r') ->
  (exists f, r_files r !! p = Some f /\ fc_sha f = sha) /\
  r' = put_file p c (log_write (WUpdate p c sha) r).
Proof.
  unfold update_file. simpl. destruct (r_files r !! p) as [f|]; [|discriminate].
  destruct (Nat.eqb_spec (fc_sha f) sha); [|discriminate]. intros [= <-]. eauto.
Qed.

Lemma json_loads_Ok c r c' r' :
  json_loads c r = (Ok c', r') -> c <> CUndecodable /\ c' = c /\ r' = r.
Proof. destruct c; simpl; try discriminate; by intros [= <- <-]. Qed.

End Monad_facts.

Ltac inv_bind H :=
  let a := fresh "a" in let r := fresh "r" in
  let H1 := fresh H in
  apply bind_Ok in H as (a & r & H1 & H).

Section Proofs.

Variables WEBSITE_URL UPLOAD_FOLDER JSON_PATH : string.

Lemma append_empty_r (a b : string) : (a ++ b)%string = "" -> b = "".
Proof. destruct a; [done | discriminate]. Qed.

(** What the [try ... except] of step 6 leaves in [existing_data] and
    [file_content]. *)
Definition fetch_result (o : option file) : content * option file :=
  match o with
  | Some f => match fc_content f with
              | CUndecodable => (CArray [], None)
              | c => (c, Some f)
              end
  | None => (CArray [], None)
  end.

Lemma fetch_store_eq r :
  fetch_store JSON_PATH r = (Ok (fetch_result (r_files r !! JSON_PATH)), r).
Proof.
  unfold fetch_store, catch, bind, get_contents.
  destruct (r_files r !! JSON_PATH) as [[c sha]|]; [|done]. by destruct c.
Qed.

Lemma upload_banner_Ok fr file r u r' :
  upload_banner WEBSITE_URL UPLOAD_FOLDER fr file r = (Ok u, r') ->
  (if String.eqb u "" then FALLBACK_BANNER else u) =
    derived_banner WEBSITE_URL UPLOAD_FOLDER fr file /\
  match file with
  | Some f =>
      if uploads_file (Some f) then
        r_files r !! upload_path UPLOAD_FOLDER fr f = None /\
        r' = put_file (upload_path UPLOAD_FOLDER fr f) (u_data f)
               (log_write (WCreate (upload_path UPLOAD_FOLDER fr f) (u_data f)) r)
      else r' = r
  | None => r' = r
  end.
Proof.
  unfold upload_banner, derived_banner, uploads_file.
  destruct file as [f|]; [|intros [= <- <-]; done].
  destruct (file_truthy f && allowed_file (u_filename f)); [|intros [= <- <-]; done].
  intros H. inv_bind H. apply ret_Ok in H as [<- <-].
  apply create_file_Ok in H0. split; [|done].
  match goal with |- context [String.eqb ?x ""] =>
    destruct (String.eqb_spec x "") as [He|]; [|done] end.
  apply append_empty_r, append_empty_r, append_empty_r in He. discriminate.
Qed.

(** Anatomy of a successful [add_post]: the request was valid, the
    repository reachable, and step 6 either updated the array it found or
    created the store from scratch. *)
Lemma add_post_200 fr req r resp r' :
  add_post WEBSITE_URL UPLOAD_FOLDER JSON_PATH fr req r = (Ok resp, r') ->
  status resp = 200 ->
  let rm := state_before_store WEBSITE_URL UPLOAD_FOLDER fr req r in
  let new := build_post fr req (derived_banner WEBSITE_URL UPLOAD_FOLDER fr (f_file req)) in
  truthy (f_title req) = true /\ truthy (f_author req) = true /\
  r_reachable r = true /\
  (exists u, upload_banner WEBSITE_URL UPLOAD_FOLDER fr (f_file req) r = (Ok u, rm)) /\
  resp = mkResponse 200 [("message", "Success"); ("id", post_uuid fr);
                         ("url", fst (media_config (f_type req) (f_mediaUrl req)
                                   (derived_banner WEBSITE_URL UPLOAD_FOLDER fr (f_file req))));
                         ("banner_url", derived_banner WEBSITE_URL UPLOAD_FOLDER fr (f_file req))] /\
  ((exists old sha,
      r_files rm !! JSON_PATH = Some (mkFile (CArray old) sha) /\
      r' = put_file JSON_PATH (CArray (new :: old))
             (log_write (WUpdate JSON_PATH (CArray (new :: old)) sha) rm)) \/
   (r_files rm !! JSON_PATH = None /\
      r' = put_file JSON_PATH (CArray [new])
             (log_write (WCreate JSON_PATH (CArray [new])) rm))).
Proof.
  unfold add_post, catch.
  destruct (add_post_body _ _ _ _ _ _) as [[x|e] r2] eqn:Hb;
    [|intros [= <- _]; discriminate].
  intros [= -> ->] Hs. unfold add_post_body in Hb.
  apply bind_Ok in Hb as (? & r1 & Hg & Hb). apply get_repo_Ok in Hg as [Hreach ->].
  destruct (negb (truthy (f_title req)) || negb (truthy (f_author req))) eqn:Hv.
  { apply ret_Ok in Hb as [<- _]. discriminate. }
  apply orb_false_iff in Hv as [Ht Ha]. apply negb_false_iff in Ht, Ha.
  apply bind_Ok in Hb as (u & rm & Hu & Hb).
  assert (Hrm : state_before_store WEBSITE_URL UPLOAD_FOLDER fr req r = rm)
    by (unfold state_before_store; by rewrite Hu).
  pose proof (upload_banner_Ok _ _ _ _ _ Hu) as [Hban _].
  rewrite Hban in Hb. cbn zeta. rewrite Hrm.
  apply bind_Ok in Hb as (fe & r3 & Hf & Hb).
  rewrite fetch_store_eq in Hf. injection Hf as <- <-.
  apply bind_Ok in Hb as (upd & r4 & Hi & Hb).
  apply bind_Ok in Hb as (? & r5 & Hw & Hb).
  apply ret_Ok in Hb as [<- <-].
  do 5 (split; [eauto|]).
  destruct (r_files rm !! JSON_PATH) as [[c sha]|] eqn:Hl; simpl in Hi, Hw.
  - destruct c; simpl in Hi, Hw; try (apply throw_Ok in Hi; contradiction);
      apply ret_Ok in Hi as [<- <-].
    + apply update_file_Ok in Hw as [_ ->]. left. eauto.
    + apply create_file_Ok in Hw as [Hn _]. simpl in Hn. congruence.
  - apply ret_Ok in Hi as [<- <-]. apply create_file_Ok in Hw as [_ ->]. by right.
Qed.

Definition success_response (fr : fresh) (req : form) (banner : string) : response :=
  mkResponse 200 [("message", "Success"); ("id", post_uuid fr);
                  ("url", fst (media_config (f_type req) (f_mediaUrl req) banner));
                  ("banner_url", banner)].

(** Step 6 of a valid [add_post] whose upload went through, case by case on
    what [JSON_PATH] holds at that point. *)
Lemma add_post_step6 fr req r u rm :
  r_reachable r = true ->
  truthy (f_title req) = true -> truthy (f_author req) = true ->
  upload_banner WEBSITE_URL UPLOAD_FOLDER fr (f_file req) r = (Ok u, rm) ->
  let banner := derived_banner WEBSITE_URL UPLOAD_FOLDER fr (f_file req) in
  let new := build_post fr req banner in
  add_post WEBSITE_URL UPLOAD_FOLDER JSON_PATH fr req r =
  match r_files rm !! JSON_PATH with
  | None =>
      (Ok (success_response fr req banner),
       put_file JSON_PATH (CArray [new]) (log_write (WCreate JSON_PATH (CArray [new])) rm))
  | Some (mkFile CUndecodable _) =>
      (Ok (mkResponse 500 [("error", "422 sha wasn't supplied")]),
       log_write (WCreate JSON_PATH (CArray [new])) rm)
  | Some (mkFile (CArray l) sha) =>
      (Ok (success_response fr req banner),
       put_file JSON_PATH (CArray (new :: l))
         (log_write (WUpdate JSON_PATH (CArray (new :: l)) sha) rm))
  | Some _ =>
      (Ok (mkResponse 500 [("error", "AttributeError: object has no attribute 'insert'")]), rm)
  end.
Proof.
  intros Hreach Ht Ha Hu.
  pose proof (upload_banner_Ok _ _ _ _ _ Hu) as [Hban _].
  unfold add_post, catch, add_post_body.
  rewrite (bind_step _ _ r tt r) by (unfold get_repo; by rewrite Hreach).
  rewrite Ht, Ha. cbn [negb orb].
  rewrite (bind_step _ _ r u rm Hu). rewrite Hban. cbn zeta.
  rewrite (bind_step _ _ rm _ rm (fetch_store_eq rm)).
  destruct (r_files rm !! JSON_PATH) as [[c sha]|] eqn:Hl;
    [destruct c|]; unfold bind, ret, throw, update_file, create_file; simpl;
    rewrite ?Hl, ?Nat.eqb_refl; reflexivity.
Qed.

Lemma stored_posts_put J l r :
  stored_posts J (put_file J (CArray l) r) = Some l.
Proof. unfold stored_posts, put_file. simpl. by rewrite lookup_insert_eq. Qed.

(** The head of the store after a successful [add_post] is the post built
    from the request. *)
Lemma add_post_200_head fr req r resp r' :
  add_post WEBSITE_URL UPLOAD_FOLDER JSON_PATH fr req r = (Ok resp, r') ->
  status resp = 200 ->
  exists old, stored_posts JSON_PATH r' =
    Some (build_post fr req (derived_banner WEBSITE_URL UPLOAD_FOLDER fr (f_file req)) :: old).
Proof.
  intros H Hs. destruct (add_post_200 _ _ _ _ _ H Hs)
    as (_ & _ & _ & _ & _ & [(old & sha & _ & ->) | (_ & ->)]);
    eexists; apply stored_posts_put.
Qed.

(** A valid request gets 200 or 500, never 400. *)
Lemma add_post_valid_status fr req r resp r' :
  truthy (f_title req) = true -> truthy (f_author req) = true ->
  add_post WEBSITE_URL UPLOAD_FOLDER JSON_PATH fr req r = (Ok resp, r') ->
  status resp = 200 \/ status resp = 500.
Proof.
  intros Ht Ha. unfold add_post, catch.
  destruct (add_post_body _ _ _ _ _ _) as [[x|e] r2] eqn:Hb;
    [|intros [= <- _]; by right].
  intros [= <- _]. left. unfold add_post_body in Hb.
  apply bind_Ok in Hb as (? & r1 & Hg & Hb). apply get_repo_Ok in Hg as [_ ->].
  rewrite Ht, Ha in Hb. cbn [negb orb] in Hb.
  apply bind_Ok in Hb as (u & rm & _ & Hb).
  apply bind_Ok in Hb as (fe & r3 & _ & Hb).
  apply bind_Ok in Hb as (upd & r4 & _ & Hb).
  apply bind_Ok in Hb as (? & r5 & _ & Hb).
  by apply ret_Ok in Hb as [<- _].
Qed.

(** A valid request succeeds when the repository is reachable, the store is
    absent or an array, and the banner's path is free. *)
Lemma add_post_succeeds fr req r :
  r_reachable r = true ->
  truthy (f_title req) = true -> truthy (f_author req) = true ->
  (r_files r !! JSON_PATH = None \/
   exists l sha, r_files r !! JSON_PATH = Some (mkFile (CArray l) sha)) ->
  (forall f, f_file req = Some f -> uploads_file (Some f) = true ->
     r_files r !! upload_path UPLOAD_FOLDER fr f = None /\
     upload_path UPLOAD_FOLDER fr f <> JSON_PATH) ->
  exists r', add_post WEBSITE_URL UPLOAD_FOLDER JSON_PATH fr req r =
    (Ok (success_response fr req (derived_banner WEBSITE_URL UPLOAD_FOLDER fr (f_file req))), r').
Proof.
  intros Hreach Ht Ha Hstore Hfree.
  assert (exists u rm, upload_banner WEBSITE_URL UPLOAD_FOLDER fr (f_file req) r = (Ok u, rm) /\
            r_files rm !! JSON_PATH = r_files r !! JSON_PATH) as (u & rm & Hu & Hl).
  { unfold upload_banner.
    destruct (f_file req) as [f|] eqn:Hf; [|by eauto].
    specialize (Hfree f eq_refl). unfold uploads_file in Hfree.
    destruct (file_truthy f && allowed_file (u_filename f)); [|by eauto].
    destruct (Hfree eq_refl) as [Hnone Hne]. unfold upload_path in Hnone, Hne.
    unfold bind, create_file, ret. simpl. rewrite Hnone.
    do 2 eexists. split; [reflexivity|]. simpl. by rewrite lookup_insert_ne. }
  rewrite (add_post_step6 fr req r u rm Hreach Ht Ha Hu). rewrite Hl.
  destruct Hstore as [-> | (l & sha & ->)]; eauto.
Qed.

(** An invalid request never reaches the repository's files. *)
Lemma add_post_invalid_eq fr req r :
  truthy (f_title req) = false \/ truthy (f_author req) = false ->
  add_post WEBSITE_URL UPLOAD_FOLDER JSON_PATH fr req r =
  (Ok (if r_reachable r then mkResponse 400 [("error", "Title and Author are required")]
       else mkResponse 500 [("error", "401 Bad credentials")]), r).
Proof.
  intros Hv. unfold add_post, catch, add_post_body, bind, get_repo.
  destruct (r_reachable r); [|done].
  replace (negb (truthy (f_title req)) || negb (truthy (f_author req))) with true; [done|].
  by destruct Hv as [-> | ->]; [|rewrite orb_true_r].
Qed.

Lemma put_file_other J c r k :
  k <> J -> r_files (put_file J c r) !! k = r_files r !! k.
Proof. intros Hk. unfold put_file. simpl. by rewrite lookup_insert_ne. Qed.

Lemma filter_all {A} (f : A -> bool) (l : list A) :
  (forall x, In x l -> f x = true) -> List.filter f l = l.
Proof.
  induction l as [|x l IH]; intros Hall; [done|]. simpl.
  rewrite Hall by (left; done). f_equal. apply IH. intros y Hy. apply Hall. by right.
Qed.

Lemma filter_length_split {A} (f : A -> bool) (l : list A) :
  length (List.filter f l) + length (List.filter (fun x => negb (f x)) l) = length l.
Proof. induction l as [|x l IH]; [done|]. simpl. destruct (f x); simpl; lia. Qed.

Lemma filter_length_lt {A} (f : A -> bool) (l : list A) x :
  In x l -> f x = false -> length (List.filter f l) < length l.
Proof.
  induction l as [|y l IH]; intros Hin Hx; [done|]. simpl.
  pose proof (filter_length_split f l) as Hs.
  destruct Hin as [-> | Hin].
  - rewrite Hx. lia.
  - specialize (IH Hin Hx). destruct (f y); simpl; lia.
Qed.

Lemma truthy_Some (s : string) : s <> "" -> truthy (Some s) = true.
Proof. intros Hs. simpl. by destruct (String.eqb_spec s ""). Qed.

Lemma add_post_unreachable fr req r :
  r_reachable r = false ->
  add_post WEBSITE_URL UPLOAD_FOLDER JSON_PATH fr req r =
  (Ok (mkResponse 500 [("error", "401 Bad credentials")]), r).
Proof. intros Hr. unfold add_post, catch, add_post_body, bind, get_repo. by rewrite Hr. Qed.

End Proofs.

(** ** The claims *)

(** Target and payload of a logged write call. *)
Definition write_path (w : write_call) : string :=
  match w with WCreate p _ => p | WUpdate p _ _ => p end.
Definition write_content (w : write_call) : content :=
  match w with WCreate _ c => c | WUpdate _ c _ => c end.

Section Claims.

Variables WEBSITE_URL UPLOAD_FOLDER JSON_PATH : string.

(** C1: a successful [add_post] writes back the array it fetched with the
    new post prepended, so listing the store shows the new post first,
    with title, author, content and type as submitted, followed by the
    previous records in their order. *)
Theorem add_post_prepends_new_post fr req r resp r' :
  add_post WEBSITE_URL UPLOAD_FOLDER JSON_PATH fr req r = (Ok resp, r') ->
  status resp = 200 ->
  let rm := state_before_store WEBSITE_URL UPLOAD_FOLDER fr req r in
  let p := build_post fr req (derived_banner WEBSITE_URL UPLOAD_FOLDER fr (f_file req)) in
  let written := p :: default [] (stored_posts JSON_PATH rm) in
  (exists w, r_writes r' = w :: r_writes rm /\
             write_path w = JSON_PATH /\ write_content w = CArray written) /\
  stored_posts JSON_PATH r' = Some written /\
  p_title p = f_title req /\ p_author p = f_author req /\
  p_content p = f_content req /\ p_type p = f_type req.
Proof.
  intros H Hs. cbn zeta.
  destruct (add_post_200 _ _ _ _ _ _ _ _ H Hs)
    as (_ & _ & _ & _ & _ & [(old & sha & Hl & ->) | (Hl & ->)]);
  [ replace (stored_posts JSON_PATH _) with (Some old)
      by (unfold stored_posts; by rewrite Hl)
  | replace (stored_posts JSON_PATH _) with (@None (list post))
      by (unfold stored_posts; by rewrite Hl) ];
  simpl default;
  (split; [eexists; split; [reflexivity | done] |]);
  (split; [apply stored_posts_put |]);
  unfold build_post; destruct (media_config _ _ _); done.
Qed.


(** C4: for a successful request with [type] in {video, youtube, pdf} the
    stored post's [mediaUrl] is the submitted [mediaUrl] field, and its
    [mediaType] is "pdf" for pdf and "youtube" otherwise. *)
Theorem add_post_link_types fr req r resp r' t :
  t ∈ ["video"; "youtube"; "pdf"] -> f_type req = Some t ->
  add_post WEBSITE_URL UPLOAD_FOLDER JSON_PATH fr req r = (Ok resp, r') ->
  status resp = 200 ->
  exists p rest, stored_posts JSON_PATH r' = Some (p :: rest) /\
    p_mediaUrl p = Some (f_mediaUrl req) /\
    p_mediaType p = Some (if String.eqb t "pdf" then "pdf" else "youtube").
Proof.
  intros Ht Hty H Hs.
  destruct (add_post_200_head _ _ _ _ _ _ _ _ H Hs) as [old Hst].
  eexists _, old. split; [exact Hst|].
  unfold build_post, media_config. rewrite Hty.
  repeat (apply elem_of_cons in Ht as [->|Ht]; [done|]).
  by apply elem_of_nil in Ht.
Qed.

(** C5: for a successful request with [type = "article"], the stored post
    has [mediaUrl = ""] and [mediaType = "none"]. *)
Theorem add_post_article_no_media fr req r resp r' :
  f_type req = Some "article" ->
  add_post WEBSITE_URL UPLOAD_FOLDER JSON_PATH fr req r = (Ok resp, r') ->
  status resp = 200 ->
  exists p rest, stored_posts JSON_PATH r' = Some (p :: rest) /\
    p_mediaUrl p = Some "" /\ p_mediaType p = Some "none".
Proof.
  intros Hty H Hs.
  destruct (add_post_200_head _ _ _ _ _ _ _ _ H Hs) as [old Hst].
  eexists _, old. split; [exact Hst|].
  unfold build_post, media_config. by rewrite Hty.
Qed.

End Claims.

(** [request] with no ['file'] entry in [request.files]. *)
Definition without_file (req : form) : form :=
  mkForm (f_title req) (f_author req) (f_content req) (f_type req) (f_mediaUrl req) None.

Section Claims2.

Variables WEBSITE_URL UPLOAD_FOLDER JSON_PATH : string.

(** C6 (amended): a create request with a missing or empty title or author
    leaves the repository untouched (no file written, no write attempted);
    it gets 400 when the connection [g.get_repo], made before validation,
    succeeds, and 500 when that connection fails. *)
Theorem add_post_rejects_missing_fields fr req r :
  truthy (f_title req) = false \/ truthy (f_author req) = false ->
  add_post WEBSITE_URL UPLOAD_FOLDER JSON_PATH fr req r =
  (Ok (if r_reachable r then mkResponse 400 [("error", "Title and Author are required")]
       else mkResponse 500 [("error", "401 Bad credentials")]), r).
Proof. apply add_post_invalid_eq. Qed.

(** C8: when no file is sent, or its name has no dot or an extension outside
    the allow-list, [add_post] behaves exactly as for a request without a
    file (no error), writes nothing but the store file, and a stored post
    gets the fallback banner. *)
Theorem add_post_skips_rejected_file fr req r :
  (f_file req = None \/
   exists u, f_file req = Some u /\ allowed_file (u_filename u) = false) ->
  add_post WEBSITE_URL UPLOAD_FOLDER JSON_PATH fr req r =
    add_post WEBSITE_URL UPLOAD_FOLDER JSON_PATH fr (without_file req) r /\
  (forall resp r', add_post WEBSITE_URL UPLOAD_FOLDER JSON_PATH fr req r = (Ok resp, r') ->
     (exists ws, r_writes r' = (ws ++ r_writes r)%list /\
                 Forall (fun w => write_path w = JSON_PATH) ws) /\
     (forall k, k <> JSON_PATH -> r_files r' !! k = r_files r !! k) /\
     (status resp = 200 -> exists p rest, stored_posts JSON_PATH r' = Some (p :: rest) /\
                            p_banner p = Some FALLBACK_BANNER)).
Proof.
  intros Hfile.
  assert (Hno : uploads_file (f_file req) = false).
  { destruct Hfile as [-> | (u & -> & Hu)]; [done|]. simpl. by rewrite Hu, andb_false_r. }
  assert (Hup : upload_banner WEBSITE_URL UPLOAD_FOLDER fr (f_file req) = ret "").
  { unfold upload_banner. unfold uploads_file in Hno.
    destruct (f_file req); [by rewrite Hno | done]. }
  assert (Hban : derived_banner WEBSITE_URL UPLOAD_FOLDER fr (f_file req) = FALLBACK_BANNER).
  { unfold derived_banner. destruct (f_file req); [by rewrite Hno | done]. }
  split.
  { unfold add_post, add_post_body. rewrite Hup. reflexivity. }
  intros resp r' H.
  destruct (r_reachable r) eqn:Hreach.
  2:{ rewrite add_post_unreachable in H by done. injection H as <- <-.
      split; [by exists [] | split; [done | discriminate]]. }
  destruct (decide (truthy (f_title req) = true /\ truthy (f_author req) = true))
    as [[Ht Ha]|Hv].
  2:{ rewrite add_post_invalid_eq, Hreach in H.
      2:{ destruct (truthy (f_title req)), (truthy (f_author req)); tauto. }
      injection H as <- <-. split; [by exists [] | split; [done | discriminate]]. }
  rewrite (add_post_step6 _ _ _ fr req r "" r Hreach Ht Ha) in H by (by rewrite Hup).
  rewrite Hban in H.
  destruct (r_files r !! JSON_PATH) as [[[]]|]; injection H as <- <-;
    try (split; [by exists [] | split; [done | discriminate]]).
  - split; [eexists [_]; split; [reflexivity | by repeat constructor] |].
    split; [intros k Hk; by rewrite put_file_other |].
    intros _. do 2 eexists. split; [apply stored_posts_put |].
    unfold build_post. by destruct (media_config _ _ _).
  - split; [eexists [_]; split; [reflexivity | by repeat constructor] |].
    split; [done | discriminate].
  - split; [eexists [_]; split; [reflexivity | by repeat constructor] |].
    split; [intros k Hk; by rewrite put_file_other |].
    intros _. do 2 eexists. split; [apply stored_posts_put |].
    unfold build_post. by destruct (media_config _ _ _).
Qed.

(** C9 (amended): once a valid request reaches step 6, a missing or
    undecodable store file is treated as an empty array and [create_file] is
    called with the new post alone: this writes the store when the file is
    absent, but is refused when an undecodable file is at the path (500,
    store unchanged); a store decoding to an array is rewritten with
    [update_file] and the fetched revision marker; any other JSON value
    makes [insert] fail (500, nothing written). *)
Theorem add_post_store_write_by_fetch fr req r u rm :
  r_reachable r = true ->
  truthy (f_title req) = true -> truthy (f_author req) = true ->
  upload_banner WEBSITE_URL UPLOAD_FOLDER fr (f_file req) r = (Ok u, rm) ->
  let banner := derived_banner WEBSITE_URL UPLOAD_FOLDER fr (f_file req) in
  let new := build_post fr req banner in
  add_post WEBSITE_URL UPLOAD_FOLDER JSON_PATH fr req r =
  match r_files rm !! JSON_PATH with
  | None =>
      (Ok (success_response fr req banner),
       put_file JSON_PATH (CArray [new]) (log_write (WCreate JSON_PATH (CArray [new])) rm))
  | Some (mkFile CUndecodable _) =>
      (Ok (mkResponse 500 [("error", "422 sha wasn't supplied")]),
       log_write (WCreate JSON_PATH (CArray [new])) rm)
  | Some (mkFile (CArray l) sha) =>
      (Ok (success_response fr req banner),
       put_file JSON_PATH (CArray (new :: l))
         (log_write (WUpdate JSON_PATH (CArray (new :: l)) sha) rm))
  | Some _ =>
      (Ok (mkResponse 500 [("error", "AttributeError: object has no attribute 'insert'")]), rm)
  end.
Proof. apply add_post_step6. Qed.

(** C10: a valid request whose [type] is absent or outside {article, image,
    video, youtube, pdf} is never rejected with 400; a stored post keeps
    the submitted [type] and has [mediaType = "none"], [mediaUrl = ""]; and
    it is stored whenever the repository cooperates. *)
Theorem add_post_unknown_type_accepted fr req r :
  truthy (f_title req) = true -> truthy (f_author req) = true ->
  (f_type req = None \/
   exists t, f_type req = Some t /\ t ∉ ["article"; "image"; "video"; "youtube"; "pdf"]) ->
  (forall resp r', add_post WEBSITE_URL UPLOAD_FOLDER JSON_PATH fr req r = (Ok resp, r') ->
     status resp <> 400 /\
     (status resp = 200 ->
        exists p rest, stored_posts JSON_PATH r' = Some (p :: rest) /\
          p_type p = f_type req /\ p_mediaType p = Some "none" /\ p_mediaUrl p = Some "")) /\
  (r_reachable r = true ->
   (r_files r !! JSON_PATH = None \/
    exists l sha, r_files r !! JSON_PATH = Some (mkFile (CArray l) sha)) ->
   (forall f, f_file req = Some f -> uploads_file (Some f) = true ->
      r_files r !! upload_path UPLOAD_FOLDER fr f = None /\
      upload_path UPLOAD_FOLDER fr f <> JSON_PATH) ->
   exists resp r', add_post WEBSITE_URL UPLOAD_FOLDER JSON_PATH fr req r = (Ok resp, r') /\
                   status resp = 200).
Proof.
  intros Ht Ha Hty.
  assert (Hmc : forall b, media_config (f_type req) (f_mediaUrl req) b = ("", "none")).
  { intros b. unfold media_config, opt_is.
    destruct Hty as [-> | (t & -> & Hn)]; [done|].
    assert (Hq : forall s, s ∈ ["article"; "image"; "video"; "youtube"; "pdf"] ->
                   String.eqb t s = false).
    { intros s' Hs'. apply String.eqb_neq. intros ->. contradiction. }
    rewrite !Hq by set_solver. done. }
  split.
  - intros resp r' H. split.
    + destruct (add_post_valid_status _ _ _ _ _ _ _ _ Ht Ha H) as [-> | ->]; done.
    + intros Hs. destruct (add_post_200_head _ _ _ _ _ _ _ _ H Hs) as [old Hst].
      eexists _, old. split; [exact Hst|]. unfold build_post. by rewrite Hmc.
  - intros Hreach Hstore Hfree.
    destruct (add_post_succeeds WEBSITE_URL UPLOAD_FOLDER JSON_PATH fr req r Hreach Ht Ha Hstore Hfree) as [r' H].
    by eexists _, r'.
Qed.

(** C7: a delete request with a non-empty id that no stored record carries
    gets 404 [{"error": "Post not found"}] and leaves the repository as it
    was: no file changed and no write call issued. *)
Theorem delete_post_not_found id l sha r :
  id <> "" -> r_reachable r = true ->
  r_files r !! JSON_PATH = Some (mkFile (CArray l) sha) ->
  (forall p, In p l -> p_id p <> Some id) ->
  delete_post JSON_PATH (Some id) r = (Ok (mkResponse 404 [("error", "Post not found")]), r).
Proof.
  intros Hid Hreach Hl Hnone.
  unfold delete_post, catch, delete_post_body. rewrite truthy_Some by done.
  unfold bind, get_repo, get_contents. simpl. rewrite Hreach; simpl. rewrite Hl. simpl.
  rewrite filter_all.
  - by rewrite Nat.eqb_refl.
  - intros p Hp. specialize (Hnone p Hp). by rewrite bool_decide_false.
Qed.

(** C2 (amended): a delete request with a non-empty id carried by some
    stored record succeeds; the store becomes the original array without
    every record carrying that id, in the original order, so its length is
    the original length minus the number of such records (one less exactly
    when the id is unique), and no remaining record has that id. *)
Theorem delete_post_removes_id id l sha r :
  id <> "" -> r_reachable r = true ->
  r_files r !! JSON_PATH = Some (mkFile (CArray l) sha) ->
  (exists p, In p l /\ p_id p = Some id) ->
  let kept := List.filter (fun p => negb (bool_decide (p_id p = Some id))) l in
  let matching := List.filter (fun p => bool_decide (p_id p = Some id)) l in
  exists r',
    delete_post JSON_PATH (Some id) r =
      (Ok (mkResponse 200 [("message", "Post deleted successfully")]), r') /\
    stored_posts JSON_PATH r' = Some kept /\
    length kept = length l - length matching /\
    (length matching = 1 -> length kept = length l - 1) /\
    (forall p, In p kept -> p_id p <> Some id).
Proof.
  intros Hid Hreach Hl (p0 & Hin & Hp0). cbn zeta.
  pose proof (filter_length_split (fun p => bool_decide (p_id p = Some id)) l) as Hsplit.
  cbv beta in Hsplit.
  assert (Hlt : length (List.filter (fun p => negb (bool_decide (p_id p = Some id))) l)
                < length l).
  { apply (filter_length_lt _ _ p0 Hin). by rewrite bool_decide_true. }
  eexists. split.
  { unfold delete_post, catch, delete_post_body. rewrite truthy_Some by done.
    unfold bind, get_repo, get_contents. simpl. rewrite Hreach; simpl. rewrite Hl. simpl.
    replace (Nat.eqb _ _) with false by (symmetry; apply Nat.eqb_neq; lia).
    unfold update_file. simpl. rewrite Hl, Nat.eqb_refl. reflexivity. }
  split; [apply stored_posts_put|].
  split; [lia|]. split; [lia|].
  intros p Hp. apply filter_In in Hp as [_ Hp].
  apply negb_true_iff, bool_decide_eq_false in Hp. done.
Qed.

End Claims2.

(** ** Further properties of the code *)

Section String_facts.

Lemma lower_char_idem c : lower_char (lower_char c) = lower_char c.
Proof. destruct c as [[] [] [] [] [] [] [] []]; reflexivity. Qed.

Lemma lower_char_dot c : Ascii.eqb (lower_char c) "."%char = Ascii.eqb c "."%char.
Proof. destruct c as [[] [] [] [] [] [] [] []]; reflexivity. Qed.

Lemma lower_idem s : lower (lower s) = lower s.
Proof. induction s as [|c s IH]; [done|]. simpl. by rewrite lower_char_idem, IH. Qed.

Lemma contains_dot_lower s : contains_dot (lower s) = contains_dot s.
Proof. induction s as [|c s IH]; [done|]. simpl. by rewrite lower_char_dot, IH. Qed.

Lemma split_last_dot_lower s :
  split_last_dot (lower s) =
  match split_last_dot s with Some (a, b) => Some (lower a, lower b) | None => None end.
Proof.
  induction s as [|c s IH]; [done|]. simpl. rewrite IH.
  destruct (split_last_dot s) as [[a b]|]; [done|].
  rewrite lower_char_dot. by destruct (Ascii.eqb c "."%char).
Qed.

Lemma split_last_dot_None s : split_last_dot s = None <-> contains_dot s = false.
Proof.
  induction s as [|c s IH]; [done|]. simpl.
  destruct (split_last_dot s) as [[a b]|].
  - split; [discriminate|]. intros H. apply orb_false_iff in H as [_ H].
    apply IH in H. discriminate.
  - destruct (Ascii.eqb c "."%char); simpl; [split; discriminate | by rewrite <- IH].
Qed.

Lemma contains_dot_app_dot a b : contains_dot (a ++ String "." b) = true.
Proof. induction a as [|c a IH]; simpl; [done|]. by rewrite IH, orb_true_r. Qed.

Lemma split_last_dot_Some s a b :
  split_last_dot s = Some (a, b) <-> s = (a ++ String "." b)%string /\ contains_dot b = false.
Proof.
  revert a b. induction s as [|c s IH]; intros a b; [split; [discriminate | intros [H _]; by destruct a]|].
  simpl. split.
  - destruct (split_last_dot s) as [[a' b']|] eqn:Hs.
    + intros [= <- <-]. destruct (proj1 (IH a' b') eq_refl) as [-> Hb]. done.
    + destruct (Ascii.eqb_spec c "."%char) as [->|]; [|discriminate].
      intros [= <- <-]. split; [done|]. by apply split_last_dot_None.
  - intros [Hs Hb]. destruct a as [|c' a].
    + simpl in Hs. injection Hs as -> ->.
      apply split_last_dot_None in Hb. by rewrite Hb.
    + simpl in Hs. injection Hs as -> ->.
      assert (Hr : split_last_dot (a ++ String "." b) = Some (a, b)) by (apply IH; done).
      by rewrite Hr.
Qed.

Lemma ends_with_slash_app s : ends_with_slash (s ++ "/") = true.
Proof.
  induction s as [|c s IH]; [done|]. simpl.
  destruct s; [done|]. exact IH.
Qed.

End String_facts.

Section Extras.

(** [allowed_file] ignores letter case: lower-casing the whole file name
    never changes the verdict. *)
Theorem allowed_file_case_insensitive s : allowed_file (lower s) = allowed_file s.
Proof.
  unfold allowed_file, rsplit_dot_1.
  rewrite contains_dot_lower, split_last_dot_lower.
  destruct (split_last_dot s) as [[a b]|]; [|done]. simpl. by rewrite lower_idem.
Qed.

(** [allowed_file] accepts exactly the names made of a stem, a dot, and a
    dot-free extension whose lower-cased form is in [ALLOWED_EXTENSIONS]. *)
Theorem allowed_file_iff s :
  allowed_file s = true <->
  exists stem ext, s = (stem ++ String "." ext)%string /\ contains_dot ext = false /\
                   In (lower ext) ALLOWED_EXTENSIONS.
Proof.
  unfold allowed_file, rsplit_dot_1. split.
  - intros H. apply andb_true_iff in H as [Hd He].
    destruct (split_last_dot s) as [[a b]|] eqn:Hs.
    + apply split_last_dot_Some in Hs as [-> Hb]. exists a, b. split; [done|]. split; [done|].
      apply existsb_exists in He as (x & Hx & Heq). apply String.eqb_eq in Heq.
      simpl in Heq. by rewrite Heq.
    + apply split_last_dot_None in Hs. congruence.
  - intros (a & b & -> & Hb & Hin).
    rewrite contains_dot_app_dot.
    assert (Hs : split_last_dot (a ++ String "." b) = Some (a, b))
      by (by apply split_last_dot_Some). rewrite Hs. simpl andb.
    change (existsb (String.eqb (lower (nth 1 [a; b] ""))) ALLOWED_EXTENSIONS = true).
    apply existsb_exists. exists (lower b). split; [done|]. apply String.eqb_refl.
Qed.

(** A successful start-up has a non-empty token and repository name; the
    upload folder and website URL are the environment's values (or the
    folder's default) with a '/' appended only when missing, so both end
    with '/'; the store path is [JSON_PATH] or "gospel.json". *)
Theorem load_config_normalizes env cfg :
  load_config env = Ok cfg ->
  let folder := default "gospel-uploads/" (env "UPLOAD_FOLDER") in
  cfg_GITHUB_TOKEN cfg <> "" /\ cfg_REPO_NAME cfg <> "" /\
  env "GITHUB_TOKEN" = Some (cfg_GITHUB_TOKEN cfg) /\
  env "GITHUB_REPO_NAME" = Some (cfg_REPO_NAME cfg) /\
  ends_with_slash (cfg_UPLOAD_FOLDER cfg) = true /\
  cfg_UPLOAD_FOLDER cfg = (if ends_with_slash folder then folder else folder ++ "/") /\
  ends_with_slash (cfg_WEBSITE_URL cfg) = true /\
  (exists w, env "WEBSITE_URL" = Some w /\
     cfg_WEBSITE_URL cfg = (if ends_with_slash w then w else w ++ "/")) /\
  cfg_JSON_PATH cfg = default "gospel.json" (env "JSON_PATH").
Proof.
  unfold load_config. cbn zeta. intros H.
  destruct (env "GITHUB_TOKEN") as [t|], (env "GITHUB_REPO_NAME") as [n|],
    (env "WEBSITE_URL") as [w|]; simpl in H;
    try (rewrite ?orb_true_r in H; discriminate).
  destruct (negb (negb (t =? "")) || negb (negb (n =? "")) ||
            negb (truthy (if negb (w =? "") && negb (ends_with_slash w)
                          then Some (w ++ "/") else Some w))) eqn:Hc; [discriminate|].
  apply orb_false_iff in Hc as [Hc Hw]. apply orb_false_iff in Hc as [Ht Hn].
  apply negb_false_iff, negb_true_iff, String.eqb_neq in Ht, Hn.
  assert (Hfold : ends_with_slash
            (if negb (ends_with_slash (default "gospel-uploads/" (env "UPLOAD_FOLDER")))
             then default "gospel-uploads/" (env "UPLOAD_FOLDER") ++ "/"
             else default "gospel-uploads/" (env "UPLOAD_FOLDER")) = true /\
          (if negb (ends_with_slash (default "gospel-uploads/" (env "UPLOAD_FOLDER")))
           then default "gospel-uploads/" (env "UPLOAD_FOLDER") ++ "/"
           else default "gospel-uploads/" (env "UPLOAD_FOLDER")) =
          (if ends_with_slash (default "gospel-uploads/" (env "UPLOAD_FOLDER"))
           then default "gospel-uploads/" (env "UPLOAD_FOLDER")
           else default "gospel-uploads/" (env "UPLOAD_FOLDER") ++ "/")).
  { destruct (ends_with_slash (default "gospel-uploads/" (env "UPLOAD_FOLDER"))) eqn:Hf;
      simpl; [done | split; [apply ends_with_slash_app | done]]. }
  destruct (negb (w =? "") && negb (ends_with_slash w)) eqn:Hws;
    injection H as <-; simpl; (do 4 (split; [done|])); (split; [apply Hfold|]);
    (split; [apply Hfold|]).
  - apply andb_true_iff in Hws as [_ Hws]. apply negb_true_iff in Hws.
    split; [apply ends_with_slash_app|]. split; [|done]. exists w. by rewrite Hws.
  - simpl in Hw. apply negb_false_iff, negb_true_iff in Hw. rewrite Hw in Hws.
    simpl in Hws. apply negb_false_iff in Hws.
    split; [done|]. split; [|done]. exists w. by rewrite Hws.
Qed.

(** Start-up fails exactly when the token, the repository name or the
    website URL is missing or empty. *)
Theorem load_config_fails_iff env :
  (exists e, load_config env = Err e) <->
  truthy (env "GITHUB_TOKEN") = false \/ truthy (env "GITHUB_REPO_NAME") = false \/
  truthy (env "WEBSITE_URL") = false.
Proof.
  unfold load_config. cbn zeta.
  destruct (env "GITHUB_TOKEN") as [t|];
    [|split; [intros _; by left | intros _; eexists; reflexivity]].
  destruct (env "GITHUB_REPO_NAME") as [n|];
    [|split; [intros _; by right; left | intros _; eexists; simpl; by rewrite orb_true_r]].
  destruct (env "WEBSITE_URL") as [w|];
    [|split; [intros _; by right; right | intros _; eexists; simpl; by rewrite !orb_true_r]].
  assert (Hw : truthy (if truthy (Some w) && negb (ends_with_slash w)
                       then Some (w ++ "/") else Some w) = truthy (Some w)).
  { destruct (truthy (Some w) && negb (ends_with_slash w)) eqn:E; [|done].
    apply andb_true_iff in E as [E _]. rewrite E. simpl.
    apply negb_true_iff, String.eqb_neq. by destruct w. }
  rewrite Hw.
  destruct (truthy (Some t)), (truthy (Some n)), (truthy (Some w)) eqn:Hw'; split;
    try (intros _; eexists; reflexivity);
    try (intros _; by left); try (intros _; by right; left); try (intros _; by right; right).
  - intros [e He]. exfalso. revert He. simpl.
    destruct (ends_with_slash w); simpl; discriminate.
  - intros [H|[H|H]]; discriminate.
Qed.

(** A delete request without a (non-empty) id is answered 400 before the
    repository is contacted, whatever its state. *)
Theorem delete_post_missing_id J post_id r :
  truthy post_id = false ->
  delete_post J post_id r = (Ok (mkResponse 400 [("error", "Post ID is required")]), r).
Proof. intros H. unfold delete_post, catch, delete_post_body. by rewrite H. Qed.

(** Unlike [add_post], [delete_post] has no fallback for a missing store
    file: it answers 500 and changes nothing. *)
Theorem delete_post_missing_store J id r :
  truthy (Some id) = true -> r_reachable r = true -> r_files r !! J = None ->
  delete_post J (Some id) r = (Ok (mkResponse 500 [("error", "404 Not Found")]), r).
Proof.
  intros Hid Hreach Hl. unfold delete_post, catch, delete_post_body. rewrite Hid.
  unfold bind, get_repo, get_contents. simpl. rewrite Hreach; simpl. by rewrite Hl.
Qed.

(** When the store decodes to something other than an array, [delete_post]
    writes nothing; it answers 404 exactly for an empty JSON object or an
    empty JSON string (nothing to iterate) and 500 otherwise. *)
Theorem delete_post_non_array_store J id f r :
  truthy (Some id) = true -> r_reachable r = true -> r_files r !! J = Some f ->
  (forall l, fc_content f <> CArray l) ->
  exists resp, delete_post J (Some id) r = (Ok resp, r) /\
    (status resp = 404 <-> fc_content f = CObject 0 \/ fc_content f = CString "") /\
    (status resp = 404 \/ status resp = 500).
Proof.
  intros Hid Hreach Hl Hna. unfold delete_post, catch, delete_post_body. rewrite Hid.
  unfold bind, get_repo, get_contents. simpl. rewrite Hreach; simpl. rewrite Hl.
  destruct f as [c sha]. simpl in *.
  destruct c as [l|[|k]|str| |]; [by destruct (Hna l) | | | | |]; simpl;
    [| | destruct (String.eqb_spec str "") as [->|Hs]; simpl | |];
    eexists; (split; [reflexivity|]); simpl;
    (split; [split; [intros H; first [discriminate | by left | by right]
                    | intros [H|H]; first [done | discriminate | congruence]]
            | first [by left | by right]]).
Qed.

(** [delete_post] never creates a file and never touches any path but the
    store: its only possible write is one [update_file] of [JSON_PATH]. *)
Theorem delete_post_frame J post_id r x r' :
  delete_post J post_id r = (x, r') ->
  (forall k, k <> J -> r_files r' !! k = r_files r !! k) /\
  (r_writes r' = r_writes r \/ exists c sha, r_writes r' = WUpdate J c sha :: r_writes r).
Proof.
  intros H.
  unfold delete_post, catch, delete_post_body, bind, get_repo, get_contents, json_loads,
    filter_out, update_file, ret, throw in H.
  repeat (case_match; simplify_eq/=); try (split; [done | by left]).
  all: split; [intros k Hk; by rewrite ?lookup_insert_ne | right; by do 2 eexists].
Qed.

Variables WEBSITE_URL UPLOAD_FOLDER JSON_PATH : string.

Lemma upload_banner_frame fr file r u r' :
  upload_banner WEBSITE_URL UPLOAD_FOLDER fr file r = (Ok u, r') ->
  r_reachable r' = r_reachable r /\
  (forall k f, r_files r !! k = Some f -> r_files r' !! k = Some f).
Proof.
  intros H. destruct (upload_banner_Ok _ _ _ _ _ _ _ H) as [_ Hr].
  destruct file as [f|]; [|by subst].
  destruct (uploads_file (Some f)); [|by subst].
  destruct Hr as [Hn ->]. split; [done|]. intros k g Hk. simpl.
  rewrite lookup_insert_ne; [done|]. intros <-. congruence.
Qed.

Lemma delete_post_present_eq id l sha r :
  id <> "" -> r_reachable r = true ->
  r_files r !! JSON_PATH = Some (mkFile (CArray l) sha) ->
  (exists p, In p l /\ p_id p = Some id) ->
  let kept := List.filter (fun p => negb (bool_decide (p_id p = Some id))) l in
  delete_post JSON_PATH (Some id) r =
    (Ok (mkResponse 200 [("message", "Post deleted successfully")]),
     put_file JSON_PATH (CArray kept) (log_write (WUpdate JSON_PATH (CArray kept) sha) r)).
Proof.
  intros Hid Hreach Hl (p0 & Hin & Hp0). cbn zeta.
  assert (Hlt : length (List.filter (fun p => negb (bool_decide (p_id p = Some id))) l)
                < length l).
  { apply (filter_length_lt _ _ p0 Hin). by rewrite bool_decide_true. }
  unfold delete_post, catch, delete_post_body. rewrite truthy_Some by done.
  unfold bind, get_repo, get_contents. simpl. rewrite Hreach; simpl. rewrite Hl. simpl.
  replace (Nat.eqb _ _) with false by (symmetry; apply Nat.eqb_neq; lia).
  unfold update_file. simpl. rewrite Hl, Nat.eqb_refl. reflexivity.
Qed.

(** Round trip: deleting, right after a successful [add_post], the id it
    generated (when no earlier record carries it) succeeds and gives back
    the array the add had fetched (empty if there was no store). *)
Theorem add_then_delete_restores fr req r resp r1 :
  add_post WEBSITE_URL UPLOAD_FOLDER JSON_PATH fr req r = (Ok resp, r1) ->
  status resp = 200 -> post_uuid fr <> "" ->
  let old := default [] (stored_posts JSON_PATH (state_before_store WEBSITE_URL UPLOAD_FOLDER fr req r)) in
  (forall p, In p old -> p_id p <> Some (post_uuid fr)) ->
  exists r2,
    delete_post JSON_PATH (Some (post_uuid fr)) r1 =
      (Ok (mkResponse 200 [("message", "Post deleted successfully")]), r2) /\
    stored_posts JSON_PATH r2 = Some old.
Proof.
  intros H Hs Hid. cbn zeta. intros Hold.
  destruct (add_post_200 _ _ _ _ _ _ _ _ H Hs) as (_ & _ & Hreach & (u & Hu) & _ & Hst).
  destruct (upload_banner_frame _ _ _ _ _ Hu) as [Hreach' _].
  set (rm := state_before_store WEBSITE_URL UPLOAD_FOLDER fr req r) in *.
  set (new := build_post fr req (derived_banner WEBSITE_URL UPLOAD_FOLDER fr (f_file req))) in *.
  assert (Hnew : p_id new = Some (post_uuid fr))
    by (unfold new, build_post; by destruct (media_config _ _ _)).
  assert (Hkeep : forall l, (forall p, In p l -> p_id p <> Some (post_uuid fr)) ->
            List.filter (fun p => negb (bool_decide (p_id p = Some (post_uuid fr)))) (new :: l) = l).
  { intros l Hl. simpl. rewrite bool_decide_true by done. simpl.
    apply filter_all. intros p Hp. by rewrite bool_decide_false by (by apply Hl). }
  destruct Hst as [(old & sha & Hl & ->) | (Hl & ->)].
  - assert (Hold' : stored_posts JSON_PATH rm = Some old) by (unfold stored_posts; by rewrite Hl).
    rewrite Hold' in Hold. simpl in Hold.
    eexists. rewrite (delete_post_present_eq (post_uuid fr) (new :: old) (r_next_sha rm));
                                              [| done | simpl; congruence
                                              | simpl; by rewrite lookup_insert_eq
                                              | exists new; by split; [left|]].
    split; [reflexivity|]. rewrite stored_posts_put, Hkeep by done. by rewrite Hold'.
  - assert (Hold' : stored_posts JSON_PATH rm = None) by (unfold stored_posts; by rewrite Hl).
    eexists. rewrite (delete_post_present_eq (post_uuid fr) [new] (r_next_sha rm));
                                              [| done | simpl; congruence
                                              | simpl; by rewrite lookup_insert_eq
                                              | exists new; by split; [left|]].
    split; [reflexivity|]. rewrite stored_posts_put, Hkeep by done. by rewrite Hold'.
Qed.

(** Two successful [add_post]s in a row leave both posts in front of the
    earlier records, newest first. *)
Theorem add_post_twice fr1 req1 fr2 req2 r resp1 r1 resp2 r2 :
  add_post WEBSITE_URL UPLOAD_FOLDER JSON_PATH fr1 req1 r = (Ok resp1, r1) -> status resp1 = 200 ->
  add_post WEBSITE_URL UPLOAD_FOLDER JSON_PATH fr2 req2 r1 = (Ok resp2, r2) -> status resp2 = 200 ->
  stored_posts JSON_PATH r2 =
    Some (build_post fr2 req2 (derived_banner WEBSITE_URL UPLOAD_FOLDER fr2 (f_file req2)) ::
          build_post fr1 req1 (derived_banner WEBSITE_URL UPLOAD_FOLDER fr1 (f_file req1)) ::
          default [] (stored_posts JSON_PATH (state_before_store WEBSITE_URL UPLOAD_FOLDER fr1 req1 r))).
Proof.
  intros H1 Hs1 H2 Hs2.
  assert (Hfirst : exists sha, r_files r1 !! JSON_PATH =
     Some (mkFile (CArray (build_post fr1 req1 (derived_banner WEBSITE_URL UPLOAD_FOLDER fr1 (f_file req1)) ::
          default [] (stored_posts JSON_PATH (state_before_store WEBSITE_URL UPLOAD_FOLDER fr1 req1 r)))) sha)).
  { destruct (add_post_200 _ _ _ _ _ _ _ _ H1 Hs1)
      as (_ & _ & _ & _ & _ & [(old & sha & Hl & ->) | (Hl & ->)]);
      eexists; simpl; rewrite lookup_insert_eq; unfold stored_posts; by rewrite Hl. }
  destruct Hfirst as [sha1 Hf1].
  destruct (add_post_200 _ _ _ _ _ _ _ _ H2 Hs2)
    as (_ & _ & _ & (u & Hu) & _ & [(old & sha & Hl & ->) | (Hl & ->)]);
    destruct (upload_banner_frame _ _ _ _ _ Hu) as [_ Hkeep];
    unfold state_before_store in Hl; rewrite Hu in Hl; simpl in Hl;
    rewrite (Hkeep _ _ Hf1) in Hl; [|discriminate].
  injection Hl as <- _. apply stored_posts_put.
Qed.

(** The 200 response of [add_post] reports what it stored: its "id",
    "url" and "banner_url" are the id, mediaUrl and banner of the post now
    at the head of the store. *)
Theorem add_post_response_matches_store fr req r resp r' :
  add_post WEBSITE_URL UPLOAD_FOLDER JSON_PATH fr req r = (Ok resp, r') ->
  status resp = 200 ->
  exists p rest mu b, stored_posts JSON_PATH r' = Some (p :: rest) /\
    p_id p = Some (post_uuid fr) /\ p_date p = Some (now_date fr) /\
    p_mediaUrl p = Some mu /\ p_banner p = Some b /\
    body resp = [("message", "Success"); ("id", post_uuid fr); ("url", mu); ("banner_url", b)].
Proof.
  intros H Hs.
  destruct (add_post_200 _ _ _ _ _ _ _ _ H Hs) as (_ & _ & _ & _ & -> & _).
  destruct (add_post_200_head _ _ _ _ _ _ _ _ H Hs) as [old Hst].
  set (b := derived_banner WEBSITE_URL UPLOAD_FOLDER fr (f_file req)) in *.
  exists (build_post fr req b), old, (fst (media_config (f_type req) (f_mediaUrl req) b)), b.
  split; [exact Hst|]. unfold build_post.
  by destruct (media_config _ _ _).
Qed.


Lemma upload_banner_uploads fr f r :
  uploads_file (Some f) = true ->
  r_files r !! upload_path UPLOAD_FOLDER fr f = None ->
  upload_banner WEBSITE_URL UPLOAD_FOLDER fr (Some f) r =
    (Ok (WEBSITE_URL ++ upload_path UPLOAD_FOLDER fr f),
     put_file (upload_path UPLOAD_FOLDER fr f) (u_data f)
       (log_write (WCreate (upload_path UPLOAD_FOLDER fr f) (u_data f)) r)).
Proof.
  unfold uploads_file. intros Hup Hfree. unfold upload_banner. rewrite Hup.
  unfold bind, create_file, ret. unfold upload_path in Hfree. simpl. by rewrite Hfree.
Qed.

(** The banner upload is not undone: once a valid [add_post] has created
    the file, it is still there after the call, whatever the store step
    answers. *)
Theorem add_post_upload_persists fr req r f x r' :
  r_reachable r = true ->
  truthy (f_title req) = true -> truthy (f_author req) = true ->
  f_file req = Some f -> uploads_file (Some f) = true ->
  r_files r !! upload_path UPLOAD_FOLDER fr f = None ->
  upload_path UPLOAD_FOLDER fr f <> JSON_PATH ->
  add_post WEBSITE_URL UPLOAD_FOLDER JSON_PATH fr req r = (x, r') ->
  r_files r' !! upload_path UPLOAD_FOLDER fr f = Some (mkFile (u_data f) (r_next_sha r)).
Proof.
  intros Hreach Ht Ha Hf Hup Hfree Hne H.
  pose proof (upload_banner_uploads fr f r Hup Hfree) as Hu. rewrite <- Hf in Hu.
  rewrite (add_post_step6 _ _ _ _ _ _ _ _ Hreach Ht Ha Hu) in H.
  set (up := upload_path UPLOAD_FOLDER fr f) in *.
  assert (Hin : r_files (put_file up (u_data f) (log_write (WCreate up (u_data f)) r)) !! up =
                Some (mkFile (u_data f) (r_next_sha r))) by (simpl; by rewrite lookup_insert_eq).
  repeat case_match; simplify_eq/=; try done;
    rewrite lookup_insert_ne by congruence; exact Hin.
Qed.

(** When the upload path is already taken, a valid [add_post] answers
    500 with GitHub's create error, records only the failed create, and
    never reaches the post store. *)
Theorem add_post_upload_collision fr req r f g :
  r_reachable r = true ->
  truthy (f_title req) = true -> truthy (f_author req) = true ->
  f_file req = Some f -> uploads_file (Some f) = true ->
  r_files r !! upload_path UPLOAD_FOLDER fr f = Some g ->
  add_post WEBSITE_URL UPLOAD_FOLDER JSON_PATH fr req r =
    (Ok (mkResponse 500 [("error", "422 sha wasn't supplied")]),
     log_write (WCreate (upload_path UPLOAD_FOLDER fr f) (u_data f)) r).
Proof.
  intros Hreach Ht Ha Hf Hup Hg.
  unfold add_post, catch, add_post_body.
  rewrite (bind_step _ _ r tt r) by (unfold get_repo; by rewrite Hreach).
  rewrite Ht, Ha. cbn [negb orb].
  unfold upload_banner. rewrite Hf. unfold uploads_file in Hup. rewrite Hup.
  unfold upload_path in Hg. unfold bind, create_file. simpl. by rewrite Hg.
Qed.

(** [add_post] writes no file other than the post store and the upload
    path of the file it was sent. *)
Theorem add_post_frame fr req r x r' k :
  add_post WEBSITE_URL UPLOAD_FOLDER JSON_PATH fr req r = (x, r') ->
  k <> JSON_PATH ->
  (forall f, f_file req = Some f -> k <> upload_path UPLOAD_FOLDER fr f) ->
  r_files r' !! k = r_files r !! k.
Proof.
  intros H Hk Hup.
  unfold add_post, catch, add_post_body, upload_path in *.
  unfold bind, get_repo, ret, throw, upload_banner, fetch_store, catch, bind, get_contents,
    json_loads, insert_front, update_file, create_file, ret, throw in H.
  repeat (case_match; simplify_eq/=); try done;
    repeat (rewrite lookup_insert_ne;
            [|solve [congruence | intros Heq; apply (Hup _ eq_refl); by rewrite Heq]]);
    done.
Qed.

End Extras.

(** ** Concrete runs *)

Definition resp_of (x : res response * repo) : response :=
  match fst x with Ok a => a | Err _ => mkResponse 0 [] end.

Definition ok_or {A} (d : A) (x : res A) : A :=
  match x with Ok a => a | Err _ => d end.

Definition req_img : form := form0 (Some "image") (Some (mkUpload "Cover.PNG" CUndecodable)).
Definition req_txt : form := form0 (Some "image") (Some (mkUpload "notes.txt" CUndecodable)).
Definition repo1 : repo := repo_with true (Some (CArray [mk_post "p1"])).

Definition run_img : res response * repo :=
  add_post web uploads store_path fr0 req_img repo1.

Definition env0 (k : string) : option string :=
  if String.eqb k "GITHUB_TOKEN" then Some "tok"
  else if String.eqb k "GITHUB_REPO_NAME" then Some "org/site"
  else if String.eqb k "WEBSITE_URL" then Some "https://site.example"
  else None.
Definition cfg0 : config := ok_or (mkConfig "" "" "" "" "") (load_config env0).

Definition fr1 : fresh := mkFresh "def456" "uuid-2" "Oct 16, 2026".
Definition req_art : form := form0 (Some "article") None.
Definition run_two : res response * repo :=
  add_post web uploads store_path fr1 req_art (snd run_img).

Definition cover : upload := mkUpload "Cover.PNG" CUndecodable.
Definition run_und : res response * repo :=
  add_post web uploads store_path fr0 req_img (repo_with true (Some CUndecodable)).
Definition repo_taken : repo :=
  mkRepo true {[ "gospel-uploads/abc123.png" := mkFile CScalar 3 ]} 8 [].

(** *** Counterexamples *)

(** C2: with two records sharing the id, both go: the store shrinks by 2. *)
Lemma delete_post_duplicate_ids :
  let r := repo_with true (Some (CArray [mk_post "p1"; mk_post "p1"])) in
  fst (delete_post store_path (Some "p1") r) =
    Ok (mkResponse 200 [("message", "Post deleted successfully")]) /\
  stored_posts store_path (snd (delete_post store_path (Some "p1") r)) = Some [] /\
  length ([] : list post) <> length [mk_post "p1"; mk_post "p1"] - 1.
Proof. vm_compute. split; [reflexivity|]. split; [reflexivity|]. discriminate. Qed.


(** C6: with the repository unreachable, a request without a title gets 500. *)
Lemma add_post_missing_title_unreachable :
  add_post web uploads store_path fr0 (mkForm None (Some "Ann") None None "" None)
    (repo_with false (Some (CArray []))) =
  (Ok (mkResponse 500 [("error", "401 Bad credentials")]), repo_with false (Some (CArray []))).
Proof. vm_compute. reflexivity. Qed.

(** C9: an undecodable store file is not overwritten: [create_file] is
    refused and the request fails with 500. *)
Lemma add_post_undecodable_store :
  let run := add_post web uploads store_path fr0 (form0 (Some "article") None)
               (repo_with true (Some CUndecodable)) in
  resp_of run = mkResponse 500 [("error", "422 sha wasn't supplied")] /\
  r_files (snd run) !! store_path = Some (mkFile CUndecodable 7) /\
  r_writes (snd run) =
    [WCreate store_path
       (CArray [build_post fr0 (form0 (Some "article") None) FALLBACK_BANNER])].
Proof. vm_compute. split; [reflexivity|]. split; reflexivity. Qed.

(** *** Witnesses: the theorems' hypotheses hold on concrete requests *)

Lemma add_post_prepends_new_post_witness :
  run_img = (Ok (resp_of run_img), snd run_img) /\ status (resp_of run_img) = 200 /\
  stored_posts store_path (snd run_img) =
    Some (build_post fr0 req_img (derived_banner web uploads fr0 (f_file req_img))
          :: default [] (stored_posts store_path (state_before_store web uploads fr0 req_img repo1))).
Proof.
  assert (H1 : run_img = (Ok (resp_of run_img), snd run_img)) by (vm_compute; reflexivity).
  assert (H2 : status (resp_of run_img) = 200) by (vm_compute; reflexivity).
  split; [exact H1|]. split; [exact H2|].
  pose proof (add_post_prepends_new_post web uploads store_path fr0 req_img repo1
                (resp_of run_img) (snd run_img) H1 H2)
    as H. cbn zeta in H. destruct H as (_ & H & _). exact H.
Defined.


Definition run_type (ty : option string) : res response * repo :=
  add_post web uploads store_path fr0 (form0 ty None) repo1.

Lemma add_post_link_types_witness :
  run_type (Some "video") = (Ok (resp_of (run_type (Some "video"))), snd (run_type (Some "video"))) /\
  status (resp_of (run_type (Some "video"))) = 200 /\
  exists p rest, stored_posts store_path (snd (run_type (Some "video"))) = Some (p :: rest) /\
    p_mediaUrl p = Some "https://youtu.be/x" /\ p_mediaType p = Some "youtube".
Proof.
  assert (H1 : run_type (Some "video") =
               (Ok (resp_of (run_type (Some "video"))), snd (run_type (Some "video"))))
    by (vm_compute; reflexivity).
  assert (H2 : status (resp_of (run_type (Some "video"))) = 200) by (vm_compute; reflexivity).
  split; [exact H1|]. split; [exact H2|].
  apply (add_post_link_types web uploads store_path fr0 (form0 (Some "video") None) repo1
           (resp_of (run_type (Some "video"))) (snd (run_type (Some "video"))) "video"); [by left | reflexivity | exact H1 | exact H2].
Defined.

Lemma add_post_article_no_media_witness :
  run_type (Some "article") =
    (Ok (resp_of (run_type (Some "article"))), snd (run_type (Some "article"))) /\
  status (resp_of (run_type (Some "article"))) = 200 /\
  exists p rest, stored_posts store_path (snd (run_type (Some "article"))) = Some (p :: rest) /\
    p_mediaUrl p = Some "" /\ p_mediaType p = Some "none".
Proof.
  assert (H1 : run_type (Some "article") =
               (Ok (resp_of (run_type (Some "article"))), snd (run_type (Some "article"))))
    by (vm_compute; reflexivity).
  assert (H2 : status (resp_of (run_type (Some "article"))) = 200) by (vm_compute; reflexivity).
  split; [exact H1|]. split; [exact H2|].
  apply (add_post_article_no_media web uploads store_path fr0 (form0 (Some "article") None)
           repo1 (resp_of (run_type (Some "article"))) (snd (run_type (Some "article")))); [reflexivity | exact H1 | exact H2].
Defined.

Lemma add_post_rejects_missing_fields_witness :
  truthy None = false /\
  add_post web uploads store_path fr0 (mkForm None (Some "Ann") None None "" None) repo1 =
  (Ok (mkResponse 400 [("error", "Title and Author are required")]), repo1).
Proof.
  split; [reflexivity|].
  apply (add_post_rejects_missing_fields web uploads store_path fr0
           (mkForm None (Some "Ann") None None "" None) repo1).
  by left.
Defined.

Lemma add_post_skips_rejected_file_witness :
  allowed_file "notes.txt" = false /\
  add_post web uploads store_path fr0 req_txt repo1 =
    add_post web uploads store_path fr0 (without_file req_txt) repo1.
Proof.
  split; [reflexivity|].
  apply (add_post_skips_rejected_file web uploads store_path fr0 req_txt repo1).
  right. exists (mkUpload "notes.txt" CUndecodable). split; reflexivity.
Defined.

Lemma add_post_store_write_by_fetch_witness :
  upload_banner web uploads fr0 (f_file req_img) repo1 =
    (Ok (ok_or "" (fst (upload_banner web uploads fr0 (f_file req_img) repo1))),
     snd (upload_banner web uploads fr0 (f_file req_img) repo1)) /\
  add_post web uploads store_path fr0 req_img repo1 =
    (Ok (success_response fr0 req_img (derived_banner web uploads fr0 (f_file req_img))),
     put_file store_path
       (CArray [build_post fr0 req_img (derived_banner web uploads fr0 (f_file req_img));
                mk_post "p1"])
       (log_write
          (WUpdate store_path
             (CArray [build_post fr0 req_img (derived_banner web uploads fr0 (f_file req_img));
                      mk_post "p1"]) 7)
          (snd (upload_banner web uploads fr0 (f_file req_img) repo1)))).
Proof.
  assert (Hu : upload_banner web uploads fr0 (f_file req_img) repo1 =
    (Ok (ok_or "" (fst (upload_banner web uploads fr0 (f_file req_img) repo1))),
     snd (upload_banner web uploads fr0 (f_file req_img) repo1))) by (vm_compute; reflexivity).
  split; [exact Hu|].
  pose proof (add_post_store_write_by_fetch web uploads store_path fr0 req_img repo1 _ _
                eq_refl eq_refl eq_refl Hu) as H.
  rewrite H. vm_compute. reflexivity.
Defined.

Lemma add_post_unknown_type_accepted_witness :
  ("gallery" ∉ ["article"; "image"; "video"; "youtube"; "pdf"]) /\
  exists resp r', add_post web uploads store_path fr0 (form0 (Some "gallery") None) repo1 =
                  (Ok resp, r') /\ status resp = 200.
Proof.
  assert (Hn : "gallery" ∉ ["article"; "image"; "video"; "youtube"; "pdf"]) by (vm_compute; set_solver).
  split; [exact Hn|].
  apply (add_post_unknown_type_accepted web uploads store_path fr0 (form0 (Some "gallery") None)
           repo1 eq_refl eq_refl).
  - right. by exists "gallery".
  - reflexivity.
  - right. by do 2 eexists.
  - discriminate.
Defined.

Lemma delete_post_not_found_witness :
  delete_post store_path (Some "zz") repo1 =
    (Ok (mkResponse 404 [("error", "Post not found")]), repo1).
Proof.
  apply (delete_post_not_found store_path "zz" [mk_post "p1"] 7 repo1).
  - discriminate.
  - reflexivity.
  - reflexivity.
  - intros p [<- | []]. discriminate.
Defined.

Lemma delete_post_removes_id_witness :
  exists r', delete_post store_path (Some "p1") (repo_with true (Some (CArray [mk_post "p1"; mk_post "p2"]))) =
      (Ok (mkResponse 200 [("message", "Post deleted successfully")]), r') /\
    stored_posts store_path r' = Some [mk_post "p2"].
Proof.
  destruct (delete_post_removes_id store_path "p1" [mk_post "p1"; mk_post "p2"] 7
              (repo_with true (Some (CArray [mk_post "p1"; mk_post "p2"]))))
    as (r' & H1 & H2 & _).
  - discriminate.
  - reflexivity.
  - reflexivity.
  - exists (mk_post "p1"). split; [by left | reflexivity].
  - exists r'. split; [exact H1|]. rewrite H2. vm_compute. reflexivity.
Defined.

Lemma load_config_normalizes_witness :
  load_config env0 = Ok cfg0 /\ ends_with_slash (cfg_WEBSITE_URL cfg0) = true /\
  cfg_UPLOAD_FOLDER cfg0 = "gospel-uploads/".
Proof.
  assert (H : load_config env0 = Ok cfg0) by (vm_compute; reflexivity).
  pose proof (load_config_normalizes env0 cfg0 H) as Hn. cbn zeta in Hn.
  destruct Hn as (_ & _ & _ & _ & _ & Hf & Hw & _).
  split; [exact H|]. split; [exact Hw|]. rewrite Hf. vm_compute. reflexivity.
Defined.

Lemma delete_post_missing_id_witness :
  delete_post store_path None repo1 =
    (Ok (mkResponse 400 [("error", "Post ID is required")]), repo1).
Proof. apply (delete_post_missing_id store_path None repo1). reflexivity. Defined.

Lemma delete_post_missing_store_witness :
  delete_post store_path (Some "p1") (repo_with true None) =
    (Ok (mkResponse 500 [("error", "404 Not Found")]), repo_with true None).
Proof.
  apply (delete_post_missing_store store_path "p1" (repo_with true None));
    vm_compute; reflexivity.
Defined.

Lemma delete_post_non_array_store_witness :
  exists resp, delete_post store_path (Some "p1") (repo_with true (Some (CObject 0))) =
    (Ok resp, repo_with true (Some (CObject 0))) /\ status resp = 404.
Proof.
  destruct (delete_post_non_array_store store_path "p1" (mkFile (CObject 0) 7)
              (repo_with true (Some (CObject 0)))) as (resp & H1 & H2 & _).
  - reflexivity.
  - reflexivity.
  - vm_compute. reflexivity.
  - intros l Hl. discriminate Hl.
  - exists resp. split; [exact H1|]. apply H2. by left.
Defined.

Lemma delete_post_frame_witness :
  r_files (snd (delete_post store_path (Some "p1") repo1)) !! "about.md" = None.
Proof.
  destruct (delete_post_frame store_path (Some "p1") repo1
              (fst (delete_post store_path (Some "p1") repo1))
              (snd (delete_post store_path (Some "p1") repo1))
              (surjective_pairing _)) as [Hf _].
  rewrite (Hf "about.md"); [vm_compute; reflexivity|].
  intros Heq. discriminate Heq.
Defined.

Lemma add_then_delete_restores_witness :
  exists r2, delete_post store_path (Some "uuid-1") (snd run_img) =
      (Ok (mkResponse 200 [("message", "Post deleted successfully")]), r2) /\
    stored_posts store_path r2 = Some [mk_post "p1"].
Proof.
  assert (H1 : run_img = (Ok (resp_of run_img), snd run_img)) by (vm_compute; reflexivity).
  assert (H2 : status (resp_of run_img) = 200) by (vm_compute; reflexivity).
  pose proof (add_then_delete_restores web uploads store_path fr0 req_img repo1
                (resp_of run_img) (snd run_img) H1 H2) as H.
  cbn zeta in H. destruct H as (r2 & Hd & Hs).
  - intros Heq. discriminate Heq.
  - intros p Hp. vm_compute in Hp. destruct Hp as [<- | []].
    intros Heq. discriminate Heq.
  - exists r2. split; [exact Hd|]. rewrite Hs. vm_compute. reflexivity.
Defined.

Lemma add_post_twice_witness :
  option_map (map p_id) (stored_posts store_path (snd run_two)) =
    Some [Some "uuid-2"; Some "uuid-1"; Some "p1"].
Proof.
  assert (H1 : run_img = (Ok (resp_of run_img), snd run_img)) by (vm_compute; reflexivity).
  assert (H2 : status (resp_of run_img) = 200) by (vm_compute; reflexivity).
  assert (H3 : run_two = (Ok (resp_of run_two), snd run_two)) by (vm_compute; reflexivity).
  assert (H4 : status (resp_of run_two) = 200) by (vm_compute; reflexivity).
  rewrite (add_post_twice web uploads store_path fr0 req_img fr1 req_art repo1
             (resp_of run_img) (snd run_img) (resp_of run_two) (snd run_two) H1 H2 H3 H4).
  vm_compute. reflexivity.
Defined.

Lemma add_post_response_matches_store_witness :
  exists p rest mu b, stored_posts store_path (snd run_img) = Some (p :: rest) /\
    p_id p = Some "uuid-1" /\ p_date p = Some "Oct 15, 2026" /\
    p_mediaUrl p = Some mu /\ p_banner p = Some b /\
    body (resp_of run_img) = [("message", "Success"); ("id", "uuid-1"); ("url", mu); ("banner_url", b)].
Proof.
  assert (H1 : run_img = (Ok (resp_of run_img), snd run_img)) by (vm_compute; reflexivity).
  assert (H2 : status (resp_of run_img) = 200) by (vm_compute; reflexivity).
  exact (add_post_response_matches_store web uploads store_path fr0 req_img repo1
           (resp_of run_img) (snd run_img) H1 H2).
Defined.


Lemma add_post_upload_persists_witness :
  status (resp_of run_und) = 500 /\
  r_files (snd run_und) !! upload_path uploads fr0 cover = Some (mkFile CUndecodable 8).
Proof.
  split; [vm_compute; reflexivity|].
  apply (add_post_upload_persists web uploads store_path fr0 req_img
           (repo_with true (Some CUndecodable)) cover (fst run_und) (snd run_und)).
  - reflexivity.
  - reflexivity.
  - reflexivity.
  - reflexivity.
  - vm_compute. reflexivity.
  - vm_compute. reflexivity.
  - vm_compute. intros Heq. discriminate Heq.
  - apply surjective_pairing.
Defined.

Lemma add_post_upload_collision_witness :
  add_post web uploads store_path fr0 req_img repo_taken =
    (Ok (mkResponse 500 [("error", "422 sha wasn't supplied")]),
     log_write (WCreate "gospel-uploads/abc123.png" CUndecodable) repo_taken).
Proof.
  apply (add_post_upload_collision web uploads store_path fr0 req_img repo_taken cover
           (mkFile CScalar 3)).
  - reflexivity.
  - reflexivity.
  - reflexivity.
  - reflexivity.
  - vm_compute. reflexivity.
  - vm_compute. reflexivity.
Defined.

Lemma add_post_frame_witness :
  r_files (snd run_img) !! "about.md" = None.
Proof.
  rewrite (add_post_frame web uploads store_path fr0 req_img repo1 (fst run_img) (snd run_img)
             "about.md" (surjective_pairing _)).
  - vm_compute. reflexivity.
  - intros Heq. discriminate Heq.
  - intros f Hf. vm_compute in Hf. injection Hf as <-.
    vm_compute. intros Heq. discriminate Heq.
Defined.
